(** * The book shop of [app.py]: catalog, accounts, session cart, checkout

    A shallow embedding of the request handlers of [src/app.py] and of the
    library operations they call (the SQL queries, the session dictionary,
    [flash], [sum]), followed by the properties of the catalog search, the
    credential store, the session cart and the checkout flow.

    Conventions of the embedding
    - a table is the list of its rows in rowid order, which is the order in
      which SQLite returns them for a query without ORDER BY;
    - a Python [int] is a [Z]; a [db.Float] column and a Python [float] are
      binary64 numbers ([PrimFloat.float]); a [str] is a [string];
    - the session dictionary is a record with one optional field per key the
      program uses; the flashed messages live in the session, as in Flask;
    - a handler is a function from the state before the request to the
      response and the state after it; an exception that a library call
      raises in it is the 500 error of the response. *)

From Stdlib Require Import ZArith List String Ascii Bool Lia Floats.
Import ListNotations.

Set Warnings "-inexact-float".

Open Scope string_scope.
Open Scope Z_scope.

(** ** Data model *)

(** [class Book(db.Model)]. *)
Module Book.
Record t : Type := mk {
  id : Z;
  title : string;
  price : float;
  description : option string
}.
End Book.

(** [class User(UserMixin, db.Model)]; [password] holds the hash. *)
Module User.
Record t : Type := mk {
  id : Z;
  username : string;
  password : string
}.
End User.

(** The two tables of [books.db]. *)
Record database : Type := mkDatabase {
  users : list User.t;
  books : list Book.t
}.

(** The Flask session: [session['_user_id']] is written by [login_user],
    [session['cart']] by the cart handlers, [session['_flashes']] by [flash]
    (each entry is a category and a message). *)
Module Session.
Record t : Type := mk {
  user_id : option Z;
  cart : option (list Z);
  flashes : list (string * string)
}.
Definition empty : t := mk None None [].
End Session.

(** What a handler reads and writes. *)
Record state : Type := mkState {
  db : database;
  session : Session.t
}.

(** [request.method], [request.args] and [request.form]. *)
Inductive http_method : Type := GET | POST.

Record request : Type := mkRequest {
  method : http_method;
  args : list (string * string);
  form : list (string * string)
}.

(** [d.get(key)] of a MultiDict: the first value stored under [key], or
    [None]. *)
Fixpoint multidict_get (key : string) (d : list (string * string))
  : option string :=
  match d with
  | [] => None
  | (k, v) :: rest => if String.eqb k key then Some v else multidict_get key rest
  end.

(** What a handler returns: a rendered template with the values passed to it,
    [redirect(url_for(endpoint))], or an HTTP error raised on the way
    ([get_or_404], a missing form key, an exception of a library call). *)
Inductive response : Type :=
| index_html (books : list Book.t) (search_query : option string)
| about_html
| login_html
| signup_html
| checkout_html (book : Book.t)
| account_html (user : User.t)
| cart_html (cart_books : list Book.t) (total_price : float)
| redirect (endpoint : string)
| abort (code : Z).

(** ** Session operations *)

(** [flash(message, category)]: appends to [session['_flashes']]. *)
Definition flash (message category : string) (s : Session.t) : Session.t :=
  Session.mk (Session.user_id s) (Session.cart s)
             (Session.flashes s ++ [(category, message)]).

(** [login_user(user)]. *)
Definition login_user (u : User.t) (s : Session.t) : Session.t :=
  Session.mk (Some (User.id u)) (Session.cart s) (Session.flashes s).

(** [logout_user()]. *)
Definition logout_user (s : Session.t) : Session.t :=
  Session.mk None (Session.cart s) (Session.flashes s).

(** [session['cart'] = c]. *)
Definition set_cart (c : list Z) (s : Session.t) : Session.t :=
  Session.mk (Session.user_id s) (Some c) (Session.flashes s).

(** [session.pop('cart', None)]. *)
Definition pop_cart (s : Session.t) : Session.t :=
  Session.mk (Session.user_id s) None (Session.flashes s).

(** ** Queries *)

(** The integers SQLite stores and takes as parameters: 64 bits, signed.
    Binding a Python [int] outside them to a statement raises
    OverflowError. *)
Definition in_int64 (i : Z) : bool :=
  (- 2 ^ 63 <=? i) && (i <? 2 ^ 63).

(** The row of the book table with the primary key [book_id], if there is
    one. *)
Definition get_book (book_id : Z) (d : database) : option Book.t :=
  find (fun b => Book.id b =? book_id) (books d).

(** [Book.query.get_or_404(book_id)]: the row with that key, or the code of
    the error. The key column holds 64-bit integers, so a key outside them
    is the key of no row, and its binding raises OverflowError, which the
    application answers with 500; for any other key without a row the
    error is 404. *)
Definition get_or_404 (book_id : Z) (d : database) : Book.t + Z :=
  match get_book book_id d with
  | Some book => inl book
  | None => inr (if in_int64 book_id then 404 else 500)
  end.

(** [User.query.get(user_id)], the body of [load_user]. *)
Definition load_user (user_id : Z) (d : database) : option User.t :=
  find (fun u => User.id u =? user_id) (users d).

(** [User.query.filter_by(username=username).first()]. The column is NOT
    NULL, so the query for [None] selects no row. *)
Definition user_by_username (username : option string) (d : database)
  : option User.t :=
  match username with
  | Some name => find (fun u => String.eqb (User.username u) name) (users d)
  | None => None
  end.

(** The primary key SQLite gives a new row: one more than the largest in the
    table, 1 in an empty table. *)
Definition next_id (ids : list Z) : Z :=
  fold_left Z.max ids 0 + 1.

(** [db.session.add(User(username=..., password=...)); db.session.commit()]. *)
Definition add_user (username password : string) (d : database)
  : User.t * database :=
  let u := User.mk (next_id (map User.id (users d))) username password in
  (u, mkDatabase (users d ++ [u]) (books d)).

(** [db.session.bulk_save_objects(rows); db.session.commit()] for books that
    come without an id: each row receives the next primary key in turn. *)
Fixpoint bulk_save_books (rows : list (string * float * option string))
  (table : list Book.t) : list Book.t :=
  match rows with
  | [] => table
  | (t, p, dsc) :: rest =>
      bulk_save_books rest
        (table ++ [Book.mk (next_id (map Book.id table)) t p dsc])
  end.

(** [current_user.is_authenticated]: the session names a user and
    [load_user] finds it. *)
Definition current_user (st : state) : option User.t :=
  match Session.user_id (session st) with
  | Some uid => load_user uid (db st)
  | None => None
  end.

(** ** Text matching: SQLite's [lower] and [LIKE] *)

(** [lower(X)] of SQLite folds the ASCII letters only. *)
Definition lower_char (c : ascii) : ascii :=
  let n := N_of_ascii c in
  if ((65 <=? n) && (n <=? 90))%N then ascii_of_N (n + 32) else c.

Fixpoint lower (s : string) : string :=
  match s with
  | EmptyString => EmptyString
  | String c r => String (lower_char c) (lower r)
  end.

(** A text is stored in UTF-8. The bytes [10xxxxxx] continue a character. *)
Fixpoint skip_continuation (s : string) : string :=
  match s with
  | EmptyString => EmptyString
  | String c r =>
      let n := N_of_ascii c in
      if ((128 <=? n) && (n <? 192))%N then skip_continuation r else s
  end.

(** The text after its first character, [None] at the end of the text. *)
Definition skip_char (s : string) : option string :=
  match s with
  | EmptyString => None
  | String c r =>
      Some (if (192 <=? N_of_ascii c)%N then skip_continuation r else r)
  end.

(** The comparison behind SQLite's LIKE without an ESCAPE clause, on two
    texts that end where they end: [%] matches any run of characters, [_]
    matches one character, every other character matches itself up to the
    case of ASCII letters. *)
Fixpoint pattern_compare (pattern s : string) {struct pattern} : bool :=
  match pattern with
  | EmptyString =>
      match s with
      | EmptyString => true
      | String _ _ => false
      end
  | String c p =>
      if Ascii.eqb c "%" then
        (fix any (u : string) : bool :=
           pattern_compare p u ||
           match u with
           | EmptyString => false
           | String _ u' => any u'
           end) s
      else if Ascii.eqb c "_" then
        match skip_char s with
        | Some u => pattern_compare p u
        | None => false
        end
      else
        match s with
        | EmptyString => false
        | String d u =>
            Ascii.eqb (lower_char c) (lower_char d) && pattern_compare p u
        end
  end.

(** The text as the C code of SQLite reads it: up to its first NUL. *)
Fixpoint c_string (s : string) : string :=
  match s with
  | EmptyString => EmptyString
  | String c r =>
      if Ascii.eqb c Ascii.zero then EmptyString else String c (c_string r)
  end.

(** SQLITE_MAX_LIKE_PATTERN_LENGTH, in bytes. *)
Definition like_pattern_limit : Z := 50000.

(** [X LIKE pattern], evaluated on one row. A pattern of more bytes than
    the limit is refused, whatever it holds: the error of the statement,
    [None] here. Otherwise pattern and text are compared as C strings, each
    up to its first NUL. *)
Definition like (pattern s : string) : option bool :=
  if like_pattern_limit <? Z.of_nat (String.length pattern) then None
  else Some (pattern_compare (c_string pattern) (c_string s)).

(** [column.ilike(pattern)]: SQLAlchemy renders it for SQLite as
    [lower(column) LIKE lower(pattern)]. *)
Definition ilike (column pattern : string) : option bool :=
  like (lower pattern) (lower column).

(** [query.filter(condition).all()]: the rows on which the condition is
    true, in the order of the table. The condition is evaluated row by row,
    and its error on a row is the error of the query. *)
Fixpoint filter_rows {A : Type} (condition : A -> option bool)
  (rows : list A) : option (list A) :=
  match rows with
  | [] => Some []
  | r :: rest =>
      match condition r with
      | None => None
      | Some keep =>
          match filter_rows condition rest with
          | None => None
          | Some found => Some (if keep then r :: found else found)
          end
      end
  end.

(** [sum(xs)] over floats: the additions from left to right, from 0.
    (CPython from 3.12 on compensates the rounding errors of the additions
    after the first one; a sum of at most one float has none.) *)
Definition sum (xs : list float) : float :=
  fold_left PrimFloat.add xs 0%float.

(** ** The seed data of [create_tables] *)

Definition default_books : list (string * float * option string) :=
  [ ("The Great Gatsby", 10.99%float, Some "A novel by F. Scott Fitzgerald.");
    ("1984", 8.99%float, Some "A dystopian novel by George Orwell.");
    ("To Kill a Mockingbird", 12.49%float, Some "A novel by Harper Lee.");
    ("Pride and Prejudice", 6.99%float, Some "A classic novel by Jane Austen.");
    ("The Catcher in the Rye", 9.99%float, Some "A novel by J.D. Salinger.");
    ("Moby Dick", 11.99%float, Some "A novel by Herman Melville.");
    ("War and Peace", 14.99%float, Some "A historical novel by Leo Tolstoy.");
    ("The Odyssey", 7.49%float, Some "An epic poem by Homer.");
    ("The Hobbit", 13.99%float, Some "A fantasy novel by J.R.R. Tolkien.") ].

(** ** The handlers that do not hash passwords *)

(** [index]: the catalog, filtered by the [search] query parameter when it
    is present and not empty; the error of the query is a 500 error. *)
Definition index (req : request) (st : state) : response * state :=
  let search_query := multidict_get "search" (args req) in
  match search_query with
  | None | Some EmptyString => (index_html (books (db st)) search_query, st)
  | Some q =>
      match filter_rows (fun b => ilike (Book.title b) ("%" ++ q ++ "%"))
                        (books (db st)) with
      | Some found => (index_html found search_query, st)
      | None => (abort 500, st)
      end
  end.

Definition about (st : state) : response * state := (about_html, st).

(** The [@login_required] decorator with [login_view = 'login']: an
    anonymous request is sent to the login page with Flask-Login's notice. *)
Definition login_required (view : User.t -> state -> response * state)
  (st : state) : response * state :=
  match current_user st with
  | Some u => view u st
  | None =>
      (redirect "login",
       mkState (db st)
         (flash "Please log in to access this page." "message" (session st)))
  end.

Definition logout : state -> response * state :=
  login_required (fun _ st =>
    (redirect "index", mkState (db st) (logout_user (session st)))).

(** [checkout]: [get_or_404] then the page of the book. *)
Definition checkout (book_id : Z) (st : state) : response * state :=
  match get_or_404 book_id (db st) with
  | inl book => (checkout_html book, st)
  | inr code => (abort code, st)
  end.

(** The message flashed by [complete_checkout]. *)
Definition confirmation (book_title address : string) : string :=
  "Покупка книги '" ++ book_title
  ++ "' прошла успешно! Ваш заказ будет отправлен на адрес: "
  ++ address ++ ".".

(** [complete_checkout]: [request.form['name']] and
    [request.form['address']] raise a 400 error on a missing key. *)
Definition complete_checkout (book_id : Z) (req : request) (st : state)
  : response * state :=
  match get_or_404 book_id (db st) with
  | inr code => (abort code, st)
  | inl book =>
      match multidict_get "name" (form req) with
      | None => (abort 400, st)
      | Some name =>
          match multidict_get "address" (form req) with
          | None => (abort 400, st)
          | Some address =>
              (redirect "index",
               mkState (db st)
                 (flash (confirmation (Book.title book) address) "success"
                        (session st)))
          end
      end
  end.

Definition account : state -> response * state :=
  login_required (fun u st => (account_html u, st)).

(** The rows of the book table whose key is one of [ids], in the order of
    the table. *)
Definition books_with_id_in (ids : list Z) (d : database) : list Book.t :=
  filter (fun b => existsb (Z.eqb (Book.id b)) ids) (books d).

(** [Book.query.filter(Book.id.in_(ids)).all()]: every id is bound to the
    statement, so one id outside the 64-bit integers makes the query raise
    OverflowError, [None] here; otherwise the rows selected. *)
Definition query_books_with_id_in (ids : list Z) (d : database)
  : option (list Book.t) :=
  if forallb in_int64 ids then Some (books_with_id_in ids d) else None.

(** [cart]: the books of the session cart and the sum of their prices; no
    query without a cart in the session; the error of the query is a 500
    error. *)
Definition cart : state -> response * state :=
  login_required (fun _ st =>
    let page cart_books :=
      (cart_html cart_books (sum (map Book.price cart_books)), st) in
    match Session.cart (session st) with
    | Some ids =>
        match query_books_with_id_in ids (db st) with
        | Some cart_books => page cart_books
        | None => (abort 500, st)
        end
    | None => page []
    end).

(** [add_to_cart]: creates the list when the session has none, appends. *)
Definition add_to_cart (book_id : Z) (st : state) : response * state :=
  let s :=
    match Session.cart (session st) with
    | Some _ => session st
    | None => set_cart [] (session st)
    end in
  let ids := match Session.cart s with Some ids => ids | None => [] end in
  (redirect "index",
   mkState (db st)
     (flash "Книга добавлена в корзину" "success"
            (set_cart (ids ++ [book_id]) s))).

(** [remove_from_cart]: only a session that has a cart is touched. *)
Definition remove_from_cart (book_id : Z) (st : state) : response * state :=
  match Session.cart (session st) with
  | Some ids =>
      (redirect "cart",
       mkState (db st)
         (flash "Книга удалена из корзины" "success"
            (set_cart (filter (fun book => negb (book =? book_id)) ids)
                      (session st))))
  | None => (redirect "cart", st)
  end.

Definition clear_cart (st : state) : response * state :=
  (redirect "cart",
   mkState (db st) (flash "Корзина очищена" "success" (pop_cart (session st)))).

(** ** The handlers that hash passwords *)

(** [werkzeug.security]. [generate_password_hash] draws a random salt: the
    salt is an argument here, and a handler that hashes takes the salt its
    call draws. [check_password_hash stored password] tells whether
    [password] hashes to [stored]. *)
Class PasswordHasher : Type := {
  generate_password_hash : string -> string -> string;
  check_password_hash : string -> string -> bool
}.

Section Credentials.
Context {hasher : PasswordHasher}.

(** What both failing branches of [login] do. *)
Definition invalid_credentials (st : state) : response * state :=
  (login_html,
   mkState (db st)
     (flash "Неверные имя пользователя или пароль" "danger" (session st))).

(** [login]. [user and user.check_password(password)] does not look at
    the password when no user is found; with a user and no [password]
    field, [check_password_hash] raises on [None]. *)
Definition login (req : request) (st : state) : response * state :=
  match method req with
  | POST =>
      let username := multidict_get "username" (form req) in
      let password := multidict_get "password" (form req) in
      match user_by_username username (db st) with
      | Some user =>
          match password with
          | Some pw =>
              if check_password_hash (User.password user) pw then
                (redirect "index",
                 mkState (db st)
                   (flash "Вы успешно вошли в систему!" "success"
                          (login_user user (session st))))
              else invalid_credentials st
          | None => (abort 500, st)
          end
      | None => invalid_credentials st
      end
  | GET => (login_html, st)
  end.

(** [signup]. The password is hashed before the lookup, which raises
    without a [password] field; a row without a username violates the NOT
    NULL constraint at the commit. *)
Definition signup (salt : string) (req : request) (st : state)
  : response * state :=
  match method req with
  | POST =>
      let username := multidict_get "username" (form req) in
      let password := multidict_get "password" (form req) in
      match password with
      | None => (abort 500, st)
      | Some pw =>
          let hashed_password := generate_password_hash salt pw in
          match user_by_username username (db st) with
          | Some _ =>
              (redirect "signup",
               mkState (db st)
                 (flash "Пользователь с таким именем уже существует."
                        "danger" (session st)))
          | None =>
              match username with
              | None => (abort 500, st)
              | Some name =>
                  let (new_user, d) :=
                    add_user name hashed_password (db st) in
                  (redirect "index",
                   mkState d
                     (flash
                        "Регистрация прошла успешно. Вы вошли в систему."
                        "success" (login_user new_user (session st))))
              end
          end
      end
  | GET => (signup_html, st)
  end.

(** [create_tables], run before every request: the default user when the
    user table is empty, the nine books when the book table is empty. *)
Definition create_tables (salt : string) (st : state) : state :=
  let d := db st in
  let d1 :=
    if Z.of_nat (List.length (users d)) =? 0
    then snd (add_user "admin" (generate_password_hash salt "admin") d)
    else d in
  let d2 :=
    if Z.of_nat (List.length (books d1)) =? 0
    then mkDatabase (users d1) (bulk_save_books default_books (books d1))
    else d1 in
  mkState d2 (session st).

End Credentials.

(** A hasher to run the handlers with: the hash is the salt, a dollar sign
    and the password, and the check compares what follows the dollar sign. *)
Fixpoint after_dollar (s : string) : option string :=
  match s with
  | EmptyString => None
  | String c r => if Ascii.eqb c "$" then Some r else after_dollar r
  end.

Definition plain_hasher : PasswordHasher := {|
  generate_password_hash := fun salt pw => salt ++ "$" ++ pw;
  check_password_hash := fun stored pw =>
    match after_dollar stored with
    | Some rest => String.eqb rest pw
    | None => false
    end
|}.

(** The database before the first request, and a state with it. *)
Definition empty_database : database := mkDatabase [] [].
Definition initial_state : state := mkState empty_database Session.empty.

(** ** Example data *)

(** The state after the first request on a fresh database, with salt
    [salt0] for the default account. *)
Definition seeded_state : state :=
  @create_tables plain_hasher "salt0" initial_state.

(** The default user logged in, with the given cart in the session. *)
Definition admin_state (d : database) (c : option (list Z)) : state :=
  mkState d (Session.mk (Some 1) c []).

Definition gatsby : Book.t :=
  Book.mk 1 "The Great Gatsby" 10.99%float
          (Some "A novel by F. Scott Fitzgerald.").


(** A GET request with a [search] parameter. *)
Definition search_request (q : string) : request :=
  mkRequest GET [("search", q)] [].

(** A search text of 60000 letters. *)
Definition long_text : string := N.iter 60000 (String "a") "".

(** A POST of the login or signup form. *)
Definition credentials_request (username password : string) : request :=
  mkRequest POST [] [("username", username); ("password", password)].

(** A POST of the checkout form. *)
Definition shipping_request (name address : string) : request :=
  mkRequest POST [] [("name", name); ("address", address)].

(** The state after alice has signed up on the seeded database. *)
Definition alice_signed_up : state :=
  snd (@signup plain_hasher "salt1" (credentials_request "alice" "pw1")
               seeded_state).

(** The ids of the session cart, none when the session has no cart. *)
Definition cart_ids (st : state) : list Z :=
  match Session.cart (session st) with
  | Some ids => ids
  | None => []
  end.

(** ** What the specification calls containment of a substring *)

(** [startswith q t]: [t] begins with [q]. *)
Fixpoint startswith (q t : string) : bool :=
  match q with
  | EmptyString => true
  | String c q' =>
      match t with
      | EmptyString => false
      | String d t' => Ascii.eqb c d && startswith q' t'
      end
  end.

(** [contains q t]: [q] occurs in [t] at some position. *)
Fixpoint contains (q t : string) : bool :=
  startswith q t ||
  match t with
  | EmptyString => false
  | String _ t' => contains q t'
  end.

(** The title contains the substring when the case of ASCII letters is
    ignored. *)
Definition title_contains (q t : string) : bool :=
  contains (lower q) (lower t).


(** The first integer above the 64-bit range. The route
    [/add_to_cart/9223372036854775808] puts it into the session cart. *)
Definition two_to_63 : Z := 9223372036854775808.


(** Removing every occurrence of [x], as a relation between the list before
    and the list after: the entries other than [x] are kept, in order. *)
Inductive without (x : Z) : list Z -> list Z -> Prop :=
| without_nil : without x [] []
| without_drop l l' : without x l l' -> without x (x :: l) l'
| without_keep y l l' :
    y <> x -> without x l l' -> without x (y :: l) (y :: l').

(** The primary key of the book table and the unique constraint of the
    [username] column. *)
Definition book_ids_unique (d : database) : Prop :=
  NoDup (map Book.id (books d)).

Definition usernames_unique (d : database) : Prop :=
  NoDup (map User.username (users d)).

(** The primary key of the user table. *)
Definition user_ids_unique (d : database) : Prop :=
  NoDup (map User.id (users d)).

(** The constraints the schema puts on the two tables. *)
Definition constraints_hold (d : database) : Prop :=
  usernames_unique d /\ user_ids_unique d /\ book_ids_unique d.

(** The search text is made of [%] only. *)
Fixpoint all_percent (q : string) : bool :=
  match q with
  | EmptyString => true
  | String c q' => Ascii.eqb c "%" && all_percent q'
  end.

(** ** The application as it serves a request *)

(** The routes of [app.py]. The converter [<int:book_id>] accepts the
    decimal numerals only, so the id of a route is not negative. *)
Inductive endpoint : Type :=
| route_index
| route_about
| route_login
| route_signup
| route_logout
| route_checkout (book_id : N)
| route_complete_checkout (book_id : N)
| route_account
| route_cart
| route_add_to_cart (book_id : N)
| route_remove_from_cart (book_id : N)
| route_clear_cart.

(** The [methods] of each [@app.route], GET where none are given. *)
Definition allowed (e : endpoint) (m : http_method) : bool :=
  match e with
  | route_index | route_login | route_signup => true
  | route_complete_checkout _ | route_remove_from_cart _ =>
      match m with POST => true | GET => false end
  | _ => match m with GET => true | POST => false end
  end.

(** One request: [create_tables] runs first ([@app.before_request]), then
    the view of the route, or the 405 error when the route does not take the
    method. [seed_salt] is the salt [create_tables] draws, [salt] the one
    [signup] draws. *)
Definition serve {hasher : PasswordHasher} (seed_salt salt : string)
  (e : endpoint) (req : request) (st : state) : response * state :=
  let st1 := create_tables seed_salt st in
  if allowed e (method req) then
    match e with
    | route_index => index req st1
    | route_about => about st1
    | route_login => login req st1
    | route_signup => signup salt req st1
    | route_logout => logout st1
    | route_checkout book_id => checkout (Z.of_N book_id) st1
    | route_complete_checkout book_id =>
        complete_checkout (Z.of_N book_id) req st1
    | route_account => account st1
    | route_cart => cart st1
    | route_add_to_cart book_id => add_to_cart (Z.of_N book_id) st1
    | route_remove_from_cart book_id =>
        remove_from_cart (Z.of_N book_id) st1
    | route_clear_cart => clear_cart st1
    end
  else (abort 405, st1).

(** A run of requests, each with its two salts, from a state on. *)
Fixpoint serve_all {hasher : PasswordHasher}
  (rs : list (string * string * endpoint * request)) (st : state) : state :=
  match rs with
  | [] => st
  | (seed_salt, salt, e, req) :: rest =>
      serve_all rest (snd (serve seed_salt salt e req st))
  end.

(** ** Lists and floats *)

Lemma filter_without (x : Z) (l : list Z) :
  without x l (filter (fun y => negb (y =? x)) l).
Proof.
  induction l as [|y l IH]; simpl.
  - constructor.
  - destruct (Z.eqb_spec y x) as [->|Hne]; simpl.
    + now constructor.
    + now constructor.
Qed.

Lemma filter_drops (x : Z) (l : list Z) :
  ~ In x (filter (fun y => negb (y =? x)) l).
Proof.
  rewrite filter_In. intros [_ H].
  rewrite Z.eqb_refl in H. discriminate.
Qed.


Lemma filter_none {A : Type} (f : A -> bool) (l : list A) :
  (forall x, In x l -> f x = false) -> filter f l = [].
Proof.
  induction l as [|a l IH]; simpl; intros H; [reflexivity|].
  rewrite (H a (or_introl eq_refl)). apply IH.
  intros x Hx. apply H. now right.
Qed.


Lemma find_by_id_In (l : list Book.t) (i : Z) (b : Book.t) :
  find (fun x => Book.id x =? i) l = Some b -> In b l /\ Book.id b = i.
Proof.
  intros H. apply find_some in H. destruct H as [Hin Heq].
  split; [exact Hin | now apply Z.eqb_eq].
Qed.

Lemma find_by_id_None (l : list Book.t) (i : Z) :
  find (fun x => Book.id x =? i) l = None ->
  forall b, In b l -> Book.id b <> i.
Proof.
  intros H b Hin Heq.
  apply (find_none _ _ H) in Hin. rewrite Heq, Z.eqb_refl in Hin.
  discriminate.
Qed.



(** ** The session cart *)

(** For a logged-in user whose session cart holds 64-bit ids only, [cart]
    renders the cart page, with the books selected by the ids of the
    session cart, and leaves the state as it is. *)
Lemma cart_authenticated (st : state) (u : User.t) :
  current_user st = Some u ->
  forallb in_int64 (cart_ids st) = true ->
  cart st =
  (cart_html (books_with_id_in (cart_ids st) (db st))
     (sum (map Book.price (books_with_id_in (cart_ids st) (db st)))), st).
Proof.
  intros Hu Hr. unfold cart, login_required, cart_ids in *. rewrite Hu.
  destruct (Session.cart (session st)) as [ids|].
  - unfold query_books_with_id_in. now rewrite Hr.
  - unfold books_with_id_in. simpl.
    rewrite (filter_none (fun _ : Book.t => false)); [reflexivity | auto].
Qed.

(** For a logged-in user whose session cart holds an id outside the 64-bit
    integers, [cart] answers with the 500 error. *)
Lemma cart_overflow (st : state) (u : User.t) :
  current_user st = Some u ->
  forallb in_int64 (cart_ids st) = false ->
  cart st = (abort 500, st).
Proof.
  intros Hu Hr. unfold cart, login_required, cart_ids in *. rewrite Hu.
  destruct (Session.cart (session st)) as [ids|]; [|discriminate].
  unfold query_books_with_id_in. now rewrite Hr.
Qed.

(** The three answers of [cart]: the cart page, the 500 error, the
    redirect to the login page. *)
Lemma cart_answers (st : state) :
  (exists cart_books total_price,
     cart st = (cart_html cart_books total_price, st))
  \/ cart st = (abort 500, st)
  \/ (exists st', cart st = (redirect "login", st')).
Proof.
  destruct (current_user st) as [u|] eqn:Hu.
  - destruct (forallb in_int64 (cart_ids st)) eqn:Hr.
    + left. rewrite (cart_authenticated st u Hu Hr). eauto.
    + right. left. exact (cart_overflow st u Hu Hr).
  - right. right. unfold cart, login_required. rewrite Hu. eauto.
Qed.




(** C5. [remove_from_cart] removes every occurrence of the id from the
    session cart and keeps the other entries in their order; after
    [add_to_cart 5], [add_to_cart 5], [remove_from_cart 5] on a session
    without a cart or with an empty one the cart is empty. *)
Theorem remove_from_cart_removes_all_occurrences :
  forall (book_id : Z) (d : database) (uid : option Z) (ids : list Z)
         (fl : list (string * string)),
  let st := mkState d (Session.mk uid (Some ids) fl) in
  let ids' := filter (fun book => negb (book =? book_id)) ids in
  Session.cart (session (snd (remove_from_cart book_id st))) = Some ids'
  /\ ~ In book_id ids'
  /\ without book_id ids ids'
  /\ Session.cart (session (snd (remove_from_cart 5 (snd (add_to_cart 5
        (snd (add_to_cart 5 (mkState d (Session.mk uid None fl))))))))) = Some []
  /\ Session.cart (session (snd (remove_from_cart 5 (snd (add_to_cart 5
        (snd (add_to_cart 5 (mkState d (Session.mk uid (Some []) fl)))))))))
     = Some [].
Proof.
  intros book_id d uid ids fl st ids'. repeat split.
  - apply filter_drops.
  - apply filter_without.
Qed.

(** C10. Without a cart in the session [remove_from_cart] changes nothing:
    no cart is created, nothing is flashed, and the answer is the redirect
    to the cart page. *)
Theorem remove_from_cart_without_cart (book_id : Z) (st : state) :
  Session.cart (session st) = None ->
  remove_from_cart book_id st = (redirect "cart", st).
Proof.
  intros H. unfold remove_from_cart. rewrite H. reflexivity.
Qed.

Lemma remove_from_cart_without_cart_witness :
  Session.cart (session seeded_state) = None
  /\ remove_from_cart 7 seeded_state = (redirect "cart", seeded_state).
Proof.
  split; [reflexivity|].
  apply (remove_from_cart_without_cart 7 seeded_state). reflexivity.
Defined.




(** C6 fails on the code. The id 9223372036854775808 names no book; put
    into the session cart by [add_to_cart], it makes [cart] answer with
    the 500 error, where the claim has the id left out and an empty page
    with the total 0. *)
Theorem cart_fails_on_large_stale_id :
  let st := admin_state (db seeded_state) None in
  get_book two_to_63 (db st) = None
  /\ Session.cart (session (snd (add_to_cart two_to_63 st)))
     = Some [two_to_63]
  /\ fst (cart (snd (add_to_cart two_to_63 st))) = abort 500.
Proof.
  repeat split; vm_compute; reflexivity.
Qed.



(** ** The catalog search *)




Lemma lower_app (a b : string) : lower (a ++ b) = lower a ++ lower b.
Proof.
  induction a as [|c a IH]; simpl; [reflexivity | now rewrite IH].
Qed.

Lemma lower_length (s : string) : String.length (lower s) = String.length s.
Proof.
  induction s as [|c s IH]; simpl; [reflexivity | now rewrite IH].
Qed.

Lemma length_app (a b : string) :
  String.length (a ++ b) = (String.length a + String.length b)%nat.
Proof.
  induction a as [|c a IH]; simpl; [reflexivity | now rewrite IH].
Qed.

Lemma lower_pattern (q : string) :
  lower ("%" ++ q ++ "%") = "%" ++ lower q ++ "%".
Proof.
  change ("%" ++ q ++ "%") with (String "%" (q ++ "%")).
  cbn [lower]. now rewrite lower_app.
Qed.

Lemma pattern_length (q : string) :
  Z.of_nat (String.length (lower ("%" ++ q ++ "%"))) =
  Z.of_nat (String.length q) + 2.
Proof.
  rewrite lower_length.
  change ("%" ++ q ++ "%") with (String "%" (q ++ "%")).
  cbn [String.length]. rewrite length_app. simpl. lia.
Qed.




(** One step of the search that [%] starts. *)
Lemma pattern_compare_percent (p s : string) :
  pattern_compare (String "%" p) s =
  pattern_compare p s ||
  match s with
  | EmptyString => false
  | String _ u => pattern_compare (String "%" p) u
  end.
Proof. destruct s; reflexivity. Qed.

Lemma pattern_compare_percent_only (s : string) :
  pattern_compare "%" s = true.
Proof.
  induction s as [|c s IH]; [reflexivity|].
  rewrite pattern_compare_percent. rewrite IH. apply orb_true_r.
Qed.




(** The condition of [index] for a search text beyond the limit of LIKE:
    the error, on every row. *)
Lemma ilike_too_long (q t : string) :
  like_pattern_limit < Z.of_nat (String.length q) + 2 ->
  ilike t ("%" ++ q ++ "%") = None.
Proof.
  intros Hl. unfold ilike, like. rewrite pattern_length.
  destruct (Z.ltb_spec like_pattern_limit (Z.of_nat (String.length q) + 2))
    as [_|Hge]; [reflexivity | lia].
Qed.

Lemma filter_rows_total {A : Type} (condition : A -> option bool)
  (f : A -> bool) (rows : list A) :
  (forall r, In r rows -> condition r = Some (f r)) ->
  filter_rows condition rows = Some (filter f rows).
Proof.
  induction rows as [|r rows IH]; simpl; intros H; [reflexivity|].
  rewrite (H r (or_introl eq_refl)), IH.
  - now destruct (f r).
  - intros x Hx. apply H. now right.
Qed.

Lemma filter_rows_error {A : Type} (condition : A -> option bool)
  (rows : list A) :
  rows <> [] -> (forall r, condition r = None) ->
  filter_rows condition rows = None.
Proof.
  destruct rows as [|r rows]; [congruence|]. intros _ H. simpl.
  now rewrite H.
Qed.



(** C7. Without a [search] parameter and with an empty one, [index] shows
    the whole book table, in the order of the table. *)
Theorem index_without_search_lists_all (req : request) (st : state) :
  multidict_get "search" (args req) = None \/
  multidict_get "search" (args req) = Some "" ->
  index req st =
  (index_html (books (db st)) (multidict_get "search" (args req)), st).
Proof.
  intros [H | H]; unfold index; rewrite H; reflexivity.
Qed.

Lemma index_without_search_lists_all_witness :
  index (mkRequest GET [] []) seeded_state =
  (index_html (books (db seeded_state)) None, seeded_state)
  /\ index (search_request "") seeded_state =
     (index_html (books (db seeded_state)) (Some ""), seeded_state).
Proof.
  split.
  - apply (index_without_search_lists_all (mkRequest GET [] []) seeded_state).
    left. reflexivity.
  - apply (index_without_search_lists_all (search_request "") seeded_state).
    right. reflexivity.
Defined.



(** C8 fails on the code. No seeded title contains an underscore, and the
    search for "_" shows all nine books: the text goes into the LIKE
    pattern as it is, where [_] stands for any character. *)
Theorem index_search_wildcard_counterexample :
  index (search_request "_") seeded_state =
  (index_html (books (db seeded_state)) (Some "_"), seeded_state)
  /\ List.length (books (db seeded_state)) = 9%nat
  /\ filter (fun b => title_contains "_" (Book.title b))
            (books (db seeded_state)) = [].
Proof.
  split; [vm_compute; reflexivity|].
  split; vm_compute; reflexivity.
Qed.

(** The same passing of the text into the pattern, at three more texts: a
    NUL ends the pattern, so that the search for a NUL shows every book and
    the search for "gatsby", NUL, "zzz" the one for "gatsby"; and a text
    of 60000 letters is answered with the 500 error. *)
Lemma index_search_nul_and_length :
  fst (index (search_request (String Ascii.zero "")) seeded_state) =
  index_html (books (db seeded_state)) (Some (String Ascii.zero ""))
  /\ fst (index (search_request ("gatsby" ++ String Ascii.zero "zzz"))
                seeded_state) =
     index_html [gatsby] (Some ("gatsby" ++ String Ascii.zero "zzz"))
  /\ fst (index (search_request long_text) seeded_state) = abort 500.
Proof.
  split; [vm_compute; reflexivity|]. split; vm_compute; reflexivity.
Qed.

(** ** The credential store *)

Lemma find_username_In (l : list User.t) (name : string) :
  In name (map User.username l) ->
  exists u, find (fun u => String.eqb (User.username u) name) l = Some u.
Proof.
  induction l as [|a l IH]; simpl; intros H; [contradiction|].
  destruct (String.eqb_spec (User.username a) name) as [Heq|Hne].
  - now exists a.
  - destruct H as [H|H]; [contradiction | now apply IH].
Qed.

Lemma find_username_None (l : list User.t) (name : string) :
  find (fun u => String.eqb (User.username u) name) l = None ->
  ~ In name (map User.username l).
Proof.
  intros Hnone Hin. apply find_username_In in Hin as [u Hu]. congruence.
Qed.

(** Under the unique constraint a name of the table names one row. *)
Lemma one_user_per_username (l : list User.t) (name : string) :
  NoDup (map User.username l) -> In name (map User.username l) ->
  List.length (filter (fun u => String.eqb (User.username u) name) l) = 1%nat.
Proof.
  induction l as [|a l IH]; simpl; intros Hnd Hin; [contradiction|].
  inversion Hnd as [|? ? Hnotin Hnd']; subst.
  destruct (String.eqb_spec (User.username a) name) as [Heq|Hne].
  - simpl. f_equal. rewrite filter_none; [reflexivity|].
    intros x Hx.
    destruct (String.eqb_spec (User.username x) name) as [Hx'|]; [|easy].
    exfalso. apply Hnotin. rewrite Heq, <- Hx'. now apply in_map.
  - destruct Hin as [Hin|Hin]; [contradiction | now apply IH].
Qed.

(** [signup] keeps the unique constraint of the user table. *)
Lemma signup_keeps_usernames_unique {hasher : PasswordHasher}
  (salt : string) (req : request) (st : state) :
  usernames_unique (db st) ->
  usernames_unique (db (snd (signup salt req st))).
Proof.
  intros Hnd. unfold signup.
  destruct (method req); [exact Hnd|].
  destruct (multidict_get "password" (form req)) as [pw|]; [|exact Hnd].
  destruct (user_by_username _ _) as [u|] eqn:Hfind; [exact Hnd|].
  destruct (multidict_get "username" (form req)) as [name|]; [|exact Hnd].
  unfold usernames_unique. simpl. rewrite map_app. simpl.
  apply find_username_None in Hfind.
  apply NoDup_rev in Hnd. rewrite <- (rev_involutive (_ ++ _)).
  apply NoDup_rev. rewrite rev_app_distr. simpl.
  constructor; [|exact Hnd]. now rewrite <- in_rev.
Qed.

(** [signup] with a username of the user table: the notice, the redirect
    to the form, the database as it was. *)
Lemma signup_existing_user {hasher : PasswordHasher}
  (salt : string) (req : request) (st : state) (name pw : string) :
  method req = POST ->
  multidict_get "username" (form req) = Some name ->
  multidict_get "password" (form req) = Some pw ->
  In name (map User.username (users (db st))) ->
  signup salt req st =
  (redirect "signup",
   mkState (db st)
     (flash "Пользователь с таким именем уже существует." "danger"
            (session st))).
Proof.
  intros Hm Hu Hp Hin.
  destruct (find_username_In _ _ Hin) as [u Hfind].
  unfold signup. rewrite Hm, Hu, Hp. unfold user_by_username.
  now rewrite Hfind.
Qed.

(** After a POST of the signup form with both fields the username is in
    the user table, whether the call added it or found it. *)
Lemma signup_registers {hasher : PasswordHasher}
  (salt : string) (req : request) (st : state) (name pw : string) :
  method req = POST ->
  multidict_get "username" (form req) = Some name ->
  multidict_get "password" (form req) = Some pw ->
  In name (map User.username (users (db (snd (signup salt req st))))).
Proof.
  intros Hm Hu Hp. unfold signup. rewrite Hm, Hu, Hp.
  unfold user_by_username.
  destruct (find _ (users (db st))) as [u|] eqn:Hfind; simpl.
  - apply find_some in Hfind as [Hin Heq].
    apply String.eqb_eq in Heq. rewrite <- Heq. now apply in_map.
  - rewrite map_app, in_app_iff. right. now left.
Qed.

(** Registering the same username twice: the second call fails and the
    table holds one user of that name. *)
Lemma signup_twice {hasher : PasswordHasher}
  (salt1 salt2 : string) (req : request) (st : state) (name pw : string) :
  method req = POST ->
  multidict_get "username" (form req) = Some name ->
  multidict_get "password" (form req) = Some pw ->
  usernames_unique (db st) ->
  let st1 := snd (signup salt1 req st) in
  fst (signup salt2 req st1) = redirect "signup"
  /\ db (snd (signup salt2 req st1)) = db st1
  /\ List.length
       (filter (fun u => String.eqb (User.username u) name)
               (users (db st1))) = 1%nat.
Proof.
  intros Hm Hu Hp Hnd st1.
  pose proof (signup_registers salt1 req st name pw Hm Hu Hp) as Hin.
  fold st1 in Hin.
  rewrite (signup_existing_user salt2 req st1 name pw Hm Hu Hp Hin).
  split; [reflexivity|]. split; [reflexivity|].
  apply one_user_per_username; [|exact Hin].
  now apply signup_keeps_usernames_unique.
Qed.

(** C2. [login] fails in one way: a POST for a username that is not in the
    user table and a POST for a username that is in it with a password that
    does not match the stored hash give the same response and the same
    state, the login page with the one notice flashed and nobody logged
    in. *)
Theorem login_fails_uniformly {hasher : PasswordHasher}
  (st : state) (req1 req2 : request) (name1 pw1 name2 pw2 : string)
  (user : User.t) :
  method req1 = POST ->
  multidict_get "username" (form req1) = Some name1 ->
  multidict_get "password" (form req1) = Some pw1 ->
  user_by_username (Some name1) (db st) = None ->
  method req2 = POST ->
  multidict_get "username" (form req2) = Some name2 ->
  multidict_get "password" (form req2) = Some pw2 ->
  user_by_username (Some name2) (db st) = Some user ->
  check_password_hash (User.password user) pw2 = false ->
  login req1 st = login req2 st
  /\ login req2 st =
     (login_html,
      mkState (db st)
        (flash "Неверные имя пользователя или пароль" "danger" (session st))).
Proof.
  intros Hm1 Hu1 Hp1 Hnone Hm2 Hu2 Hp2 Hsome Hcheck.
  unfold login. rewrite Hm1, Hu1, Hp1, Hnone, Hm2, Hu2, Hp2, Hsome, Hcheck.
  split; reflexivity.
Qed.

Lemma login_fails_uniformly_witness :
  @login plain_hasher (credentials_request "nobody" "admin") seeded_state =
  @login plain_hasher (credentials_request "admin" "wrong") seeded_state.
Proof.
  apply (@login_fails_uniformly plain_hasher seeded_state
           (credentials_request "nobody" "admin")
           (credentials_request "admin" "wrong")
           "nobody" "admin" "admin" "wrong"
           (User.mk 1 "admin" "salt0$admin"));
    reflexivity.
Defined.

(** C3. [signup] with a username of the user table fails: it redirects to
    the signup form with the notice that the user exists, leaves the
    database as it is, and the table still holds one user of that name. *)
Theorem signup_duplicate_username {hasher : PasswordHasher}
  (salt : string) (req : request) (st : state) (name pw : string) :
  method req = POST ->
  multidict_get "username" (form req) = Some name ->
  multidict_get "password" (form req) = Some pw ->
  In name (map User.username (users (db st))) ->
  usernames_unique (db st) ->
  signup salt req st =
  (redirect "signup",
   mkState (db st)
     (flash "Пользователь с таким именем уже существует." "danger"
            (session st)))
  /\ db (snd (signup salt req st)) = db st
  /\ List.length
       (filter (fun u => String.eqb (User.username u) name)
               (users (db (snd (signup salt req st))))) = 1%nat.
Proof.
  intros Hm Hu Hp Hin Hnd.
  rewrite (signup_existing_user salt req st name pw Hm Hu Hp Hin).
  split; [reflexivity|]. split; [reflexivity|].
  simpl. now apply one_user_per_username.
Qed.

Lemma signup_duplicate_username_witness :
  db (snd (@signup plain_hasher "salt2" (credentials_request "alice" "pw1")
                   alice_signed_up)) = db alice_signed_up
  /\ List.length
       (filter (fun u => String.eqb (User.username u) "alice")
          (users (db (snd (@signup plain_hasher "salt2"
                             (credentials_request "alice" "pw1")
                             alice_signed_up))))) = 1%nat.
Proof.
  apply (@signup_duplicate_username plain_hasher "salt2"
           (credentials_request "alice" "pw1") alice_signed_up "alice" "pw1");
    try reflexivity.
  - vm_compute. right. left. reflexivity.
  - apply (@signup_keeps_usernames_unique plain_hasher).
    unfold usernames_unique. vm_compute.
    repeat (constructor; [simpl; intuition discriminate|]). constructor.
Defined.

(** After [create_tables] neither table is empty. *)
Lemma create_tables_fills {hasher : PasswordHasher}
  (salt : string) (st : state) :
  users (db (create_tables salt st)) <> []
  /\ books (db (create_tables salt st)) <> [].
Proof.
  destruct st as [[us bks] s]. unfold create_tables.
  destruct us as [|u us], bks as [|b bks]; split; discriminate.
Qed.

(** [create_tables] leaves a database with rows in both tables as it is. *)
Lemma create_tables_filled {hasher : PasswordHasher}
  (salt : string) (st : state) :
  users (db st) <> [] -> books (db st) <> [] -> create_tables salt st = st.
Proof.
  destruct st as [[us bks] s]. simpl.
  destruct us as [|u us], bks as [|b bks]; intros Hu Hb;
    try congruence. reflexivity.
Qed.

(** C4. [create_tables] is idempotent: run again after itself, and so
    before every later request, it changes nothing, whatever salts the
    calls draw. A user table with a row and a book table with a row are
    left alone. From the empty database one call and two calls both leave
    one user and nine books. *)
Theorem create_tables_idempotent {hasher : PasswordHasher}
  (salt1 salt2 : string) (salts : list string) (st : state)
  (u : User.t) (us : list User.t) (b : Book.t) (bs : list Book.t) :
  create_tables salt2 (create_tables salt1 st) = create_tables salt1 st
  /\ fold_left (fun s salt => create_tables salt s) salts
               (create_tables salt1 st) = create_tables salt1 st
  /\ users (db (create_tables salt1
                  (mkState (mkDatabase (u :: us) (books (db st)))
                           (session st)))) = u :: us
  /\ books (db (create_tables salt1
                  (mkState (mkDatabase (users (db st)) (b :: bs))
                           (session st)))) = b :: bs
  /\ List.length (users (db (create_tables salt1 initial_state))) = 1%nat
  /\ List.length (books (db (create_tables salt1 initial_state))) = 9%nat
  /\ List.length
       (users (db (create_tables salt2 (create_tables salt1 initial_state))))
     = 1%nat
  /\ List.length
       (books (db (create_tables salt2 (create_tables salt1 initial_state))))
     = 9%nat.
Proof.
  assert (Hidem : forall salt, create_tables salt (create_tables salt1 st)
                               = create_tables salt1 st).
  { intros salt. destruct (create_tables_fills salt1 st) as [Hu Hb].
    now apply create_tables_filled. }
  split; [apply Hidem|]. split.
  { induction salts as [|salt salts IH]; simpl; [reflexivity|].
    now rewrite Hidem. }
  split.
  { destruct st as [[us0 bks] s]. simpl.
    destruct bks as [|b0 bks]; reflexivity. }
  split.
  { destruct st as [[us0 bks] s]. simpl.
    destruct us0 as [|u0 us0]; reflexivity. }
  repeat split.
Qed.

(** ** The checkout flow *)

(** C9. For a book of the catalog, [complete_checkout] does not depend on
    the [name] field: two forms with a name each and the same [address]
    give the same response and the same state, and with an address the
    response is the redirect to the index and the notice is made of the
    title of the book and the address. *)
Theorem complete_checkout_ignores_name
  (book_id : Z) (st : state) (req1 req2 : request) (book : Book.t)
  (name1 name2 : string) :
  get_book book_id (db st) = Some book ->
  multidict_get "name" (form req1) = Some name1 ->
  multidict_get "name" (form req2) = Some name2 ->
  multidict_get "address" (form req1) = multidict_get "address" (form req2) ->
  complete_checkout book_id req1 st = complete_checkout book_id req2 st
  /\ (forall address,
        multidict_get "address" (form req1) = Some address ->
        complete_checkout book_id req1 st =
        (redirect "index",
         mkState (db st)
           (flash (confirmation (Book.title book) address) "success"
                  (session st)))).
Proof.
  intros Hb Hn1 Hn2 Ha. unfold complete_checkout, get_or_404.
  rewrite Hb, Hn1, Hn2, Ha. split; [reflexivity|].
  intros address Haddr. rewrite Haddr. reflexivity.
Qed.

Lemma complete_checkout_ignores_name_witness :
  complete_checkout 1 (shipping_request "Ann" "1 Main St") seeded_state =
  complete_checkout 1 (shipping_request "Bob" "1 Main St") seeded_state.
Proof.
  apply (complete_checkout_ignores_name 1 seeded_state
           (shipping_request "Ann" "1 Main St")
           (shipping_request "Bob" "1 Main St") gatsby "Ann" "Bob");
    reflexivity.
Defined.

(** ** The end-to-end scenarios of the specification *)

Example search_1984 :
  fst (index (search_request "1984") seeded_state) =
  index_html
    [Book.mk 2 "1984" 8.99%float (Some "A dystopian novel by George Orwell.")]
    (Some "1984").
Proof. vm_compute. reflexivity. Qed.

Example signup_then_login :
  fst (@login plain_hasher (credentials_request "alice" "pw1")
              alice_signed_up) = redirect "index"
  /\ fst (@login plain_hasher (credentials_request "alice" "wrong")
                 alice_signed_up) = login_html.
Proof. split; vm_compute; reflexivity. Qed.

(** ** More on the session cart *)

Lemma add_to_cart_ids (book_id : Z) (st : state) :
  Session.cart (session (snd (add_to_cart book_id st))) =
  Some (cart_ids st ++ [book_id])%list.
Proof.
  unfold add_to_cart, cart_ids.
  destruct (Session.cart (session st)) as [ids|] eqn:Hc; simpl;
    rewrite ?Hc; reflexivity.
Qed.

Lemma remove_from_cart_ids (book_id : Z) (st : state) :
  cart_ids (snd (remove_from_cart book_id st)) =
  filter (fun book => negb (book =? book_id)) (cart_ids st).
Proof.
  unfold remove_from_cart, cart_ids.
  destruct (Session.cart (session st)) as [ids|] eqn:Hc; simpl;
    rewrite ?Hc; reflexivity.
Qed.



Lemma filter_keeps_all (x : Z) (l : list Z) :
  filter (fun y => negb (y =? x)) l = l <-> ~ In x l.
Proof.
  split.
  - intros H Hin. rewrite <- H in Hin. exact (filter_drops x l Hin).
  - induction l as [|y l IH]; simpl; intros Hn; [reflexivity|].
    destruct (Z.eqb_spec y x) as [->|Hne]; simpl.
    + exfalso. apply Hn. now left.
    + f_equal. apply IH. intros Hin. apply Hn. now right.
Qed.

(** [add_to_cart] puts one more occurrence of the id at the end of the
    session cart, which it creates when the session has none. It does so
    for every id, whether or not a book has it, and touches neither the
    database nor the login. *)
Theorem add_to_cart_appends (book_id : Z) (st : state) :
  fst (add_to_cart book_id st) = redirect "index"
  /\ Session.cart (session (snd (add_to_cart book_id st))) =
     Some (cart_ids st ++ [book_id])%list
  /\ count_occ Z.eq_dec (cart_ids (snd (add_to_cart book_id st))) book_id =
     S (count_occ Z.eq_dec (cart_ids st) book_id)
  /\ db (snd (add_to_cart book_id st)) = db st
  /\ Session.user_id (session (snd (add_to_cart book_id st))) =
     Session.user_id (session st).
Proof.
  split; [reflexivity|]. split; [apply add_to_cart_ids|]. split.
  - unfold cart_ids at 1. rewrite add_to_cart_ids.
    rewrite count_occ_app. simpl.
    destruct (Z.eq_dec book_id book_id) as [_|Hne]; [lia | congruence].
  - split; [reflexivity|]. unfold add_to_cart.
    destruct (Session.cart (session st)); reflexivity.
Qed.

(** Adding one id and removing another one can be done in either order: the
    session cart is the same. *)
Theorem add_remove_commute (i j : Z) (st : state) :
  i <> j ->
  Session.cart (session (snd (remove_from_cart i (snd (add_to_cart j st)))))
  = Session.cart
      (session (snd (add_to_cart j (snd (remove_from_cart i st))))).
Proof.
  intros Hne. rewrite add_to_cart_ids, remove_from_cart_ids.
  unfold remove_from_cart. rewrite add_to_cart_ids. simpl.
  rewrite filter_app. simpl.
  destruct (Z.eqb_spec j i) as [Heq|_]; [congruence | reflexivity].
Qed.

Lemma add_remove_commute_witness :
  Session.cart (session (snd (remove_from_cart 2
                                (snd (add_to_cart 3 seeded_state)))))
  = Session.cart (session (snd (add_to_cart 3
                                  (snd (remove_from_cart 2 seeded_state))))).
Proof.
  apply (add_remove_commute 2 3 seeded_state). discriminate.
Defined.

(** [remove_from_cart] does not undo [add_to_cart]: after adding an id and
    removing it, the cart is the cart before without any occurrence of the
    id, which is the cart before only when it did not hold the id. *)
Theorem remove_after_add (book_id : Z) (st : state) :
  Session.cart
    (session (snd (remove_from_cart book_id (snd (add_to_cart book_id st)))))
  = Some (filter (fun book => negb (book =? book_id)) (cart_ids st))
  /\ (cart_ids (snd (remove_from_cart book_id
                       (snd (add_to_cart book_id st)))) = cart_ids st
      <-> ~ In book_id (cart_ids st)).
Proof.
  assert (H : Session.cart
                (session (snd (remove_from_cart book_id
                                 (snd (add_to_cart book_id st)))))
              = Some (filter (fun book => negb (book =? book_id))
                             (cart_ids st))).
  { unfold remove_from_cart. rewrite add_to_cart_ids. simpl.
    rewrite filter_app. simpl. rewrite Z.eqb_refl. simpl.
    now rewrite app_nil_r. }
  split; [exact H|].
  unfold cart_ids at 1. rewrite H. apply filter_keeps_all.
Qed.





(** After [clear_cart] the session has no cart, and the cart page of a
    logged-in user shows no book and the total 0, whatever was in the cart;
    the database and the login are as before. *)
Theorem cart_empty_after_clear (st : state) (u : User.t) :
  current_user st = Some u ->
  Session.cart (session (snd (clear_cart st))) = None
  /\ cart (snd (clear_cart st)) =
     (cart_html [] 0%float, snd (clear_cart st))
  /\ db (snd (clear_cart st)) = db st
  /\ current_user (snd (clear_cart st)) = Some u.
Proof.
  intros Hu.
  assert (Hu' : current_user (snd (clear_cart st)) = Some u) by exact Hu.
  split; [reflexivity|]. split; [|split; [reflexivity | exact Hu']].
  rewrite (cart_authenticated _ u Hu' eq_refl).
  change (cart_ids (snd (clear_cart st))) with (@nil Z).
  unfold books_with_id_in. simpl.
  rewrite (filter_none (fun _ : Book.t => false)); [reflexivity | auto].
Qed.

Lemma cart_empty_after_clear_witness :
  cart (snd (clear_cart (admin_state (db seeded_state) (Some [1; 2])))) =
  (cart_html [] 0%float,
   snd (clear_cart (admin_state (db seeded_state) (Some [1; 2])))).
Proof.
  apply (cart_empty_after_clear
           (admin_state (db seeded_state) (Some [1; 2]))
           (User.mk 1 "admin" "salt0$admin")).
  reflexivity.
Defined.



(** ** Lookups by primary key *)

(** In a table whose keys are unique, the lookup by the key of a row finds
    that row. *)
Lemma find_unique {A : Type} (key : A -> Z) (l : list A) (a : A) :
  NoDup (map key l) -> In a l ->
  find (fun x => key x =? key a) l = Some a.
Proof.
  induction l as [|y l IH]; simpl; intros Hnd Hin; [contradiction|].
  inversion Hnd as [|? ? Hnotin Hnd']; subst.
  destruct Hin as [->|Hin].
  - now rewrite Z.eqb_refl.
  - destruct (Z.eqb_spec (key y) (key a)) as [Heq|_]; [|now apply IH].
    exfalso. apply Hnotin. rewrite Heq. now apply in_map.
Qed.

(** A row appended to a table is found by a test that no earlier row
    passes. *)
Lemma find_appended {A : Type} (f : A -> bool) (l : list A) (a : A) :
  (forall x, In x l -> f x = false) -> f a = true ->
  find f (l ++ [a]) = Some a.
Proof.
  induction l as [|y l IH]; simpl; intros Hl Ha.
  - now rewrite Ha.
  - rewrite (Hl y (or_introl eq_refl)). apply IH; [|exact Ha].
    intros x Hx. apply Hl. now right.
Qed.

Lemma fold_left_max_bounds (l : list Z) (a : Z) :
  a <= fold_left Z.max l a /\ forall x, In x l -> x <= fold_left Z.max l a.
Proof.
  revert a. induction l as [|y l IH]; simpl; intros a.
  - split; [lia | contradiction].
  - destruct (IH (Z.max a y)) as [Ha Hl]. split; [lia|].
    intros x [<-|Hx]; [lia | now apply Hl].
Qed.

(** The key of a new row is larger than every key of the table. *)
Lemma next_id_above (ids : list Z) (x : Z) : In x ids -> x < next_id ids.
Proof.
  intros Hx. unfold next_id.
  pose proof (proj2 (fold_left_max_bounds ids 0) x Hx). lia.
Qed.

Lemma next_id_fresh (ids : list Z) : ~ In (next_id ids) ids.
Proof. intros H. apply next_id_above in H. lia. Qed.

Lemma NoDup_snoc {A : Type} (l : list A) (a : A) :
  NoDup l -> ~ In a l -> NoDup (l ++ [a]).
Proof.
  intros Hnd Hn. apply NoDup_rev in Hnd.
  rewrite <- (rev_involutive (l ++ [a])). apply NoDup_rev.
  rewrite rev_app_distr. simpl. constructor; [|exact Hnd].
  now rewrite <- in_rev.
Qed.

(** ** The checkout flow, continued *)

(** With a primary key on the book table, [checkout] with the id of a book
    of the catalog shows that very book, and leaves the state as it is. *)
Theorem checkout_shows_the_book (st : state) (b : Book.t) :
  book_ids_unique (db st) ->
  In b (books (db st)) ->
  checkout (Book.id b) st = (checkout_html b, st).
Proof.
  intros Hnd Hin. unfold checkout, get_or_404, get_book.
  now rewrite (find_unique Book.id _ b Hnd Hin).
Qed.

Lemma checkout_shows_the_book_witness :
  checkout 1 seeded_state = (checkout_html gatsby, seeded_state).
Proof.
  apply (checkout_shows_the_book seeded_state gatsby).
  - unfold book_ids_unique. vm_compute.
    repeat (constructor; [simpl; intuition discriminate|]). constructor.
  - left. reflexivity.
Defined.

(** The three answers of [checkout], none of which changes the state: when
    no book of the catalog has the id, the 404 error for a 64-bit id and
    the 500 error for an id outside the 64-bit integers; otherwise the page
    of a book of the catalog with that id. *)
Theorem checkout_outcomes (book_id : Z) (st : state) :
  snd (checkout book_id st) = st
  /\ (fst (checkout book_id st) = abort 404 <->
      in_int64 book_id = true /\
      forall b, In b (books (db st)) -> Book.id b <> book_id)
  /\ (fst (checkout book_id st) = abort 500 <->
      in_int64 book_id = false /\
      forall b, In b (books (db st)) -> Book.id b <> book_id)
  /\ (forall b, fst (checkout book_id st) = checkout_html b ->
        In b (books (db st)) /\ Book.id b = book_id)
  /\ ((exists b, fst (checkout book_id st) = checkout_html b)
      \/ fst (checkout book_id st) = abort 404
      \/ fst (checkout book_id st) = abort 500).
Proof.
  unfold checkout, get_or_404, get_book.
  destruct (find _ (books (db st))) as [b|] eqn:Hf; simpl.
  - apply find_by_id_In in Hf as [Hin Hid].
    split; [reflexivity|]. split; [|split; [|split]].
    + split; [discriminate|]. intros [_ H]. exfalso. exact (H b Hin Hid).
    + split; [discriminate|]. intros [_ H]. exfalso. exact (H b Hin Hid).
    + intros b' E. injection E as <-. now split.
    + left. now exists b.
  - pose proof (find_by_id_None _ _ Hf) as Hnone.
    destruct (in_int64 book_id); simpl;
      (split; [reflexivity|]); (split; [|split; [|split]]);
      try (split; [try discriminate; now split | intros [H _];
                   try reflexivity; discriminate]);
      try discriminate; auto.
Qed.

(** The answers of [complete_checkout]: when no book has the id, the 404
    error for a 64-bit id and the 500 error for an id outside the 64-bit
    integers; 400 exactly when the book exists and the [name] or the
    [address] field is missing; the redirect to the index exactly when the
    book and both fields are there. An error leaves the state as it is. *)
Theorem complete_checkout_outcomes
  (book_id : Z) (req : request) (st : state) :
  (fst (complete_checkout book_id req st) = abort 404 <->
   get_book book_id (db st) = None /\ in_int64 book_id = true)
  /\ (fst (complete_checkout book_id req st) = abort 500 <->
      get_book book_id (db st) = None /\ in_int64 book_id = false)
  /\ (fst (complete_checkout book_id req st) = abort 400 <->
      get_book book_id (db st) <> None /\
      (multidict_get "name" (form req) = None \/
       multidict_get "address" (form req) = None))
  /\ (fst (complete_checkout book_id req st) = redirect "index" <->
      get_book book_id (db st) <> None /\
      multidict_get "name" (form req) <> None /\
      multidict_get "address" (form req) <> None)
  /\ (fst (complete_checkout book_id req st) <> redirect "index" ->
      snd (complete_checkout book_id req st) = st).
Proof.
  unfold complete_checkout, get_or_404.
  destruct (get_book book_id (db st)) as [b|];
    [destruct (multidict_get "name" (form req)) as [n|];
     [destruct (multidict_get "address" (form req)) as [a|]|]
    |destruct (in_int64 book_id)];
    simpl; repeat split; try discriminate; try congruence;
    try tauto; intuition congruence.
Qed.

(** [complete_checkout] records nothing: whatever the request, the database
    is as before, the session cart still holds what it held (the book
    bought is not taken out of it) and the login is the same. *)
Theorem complete_checkout_records_nothing
  (book_id : Z) (req : request) (st : state) :
  db (snd (complete_checkout book_id req st)) = db st
  /\ Session.cart (session (snd (complete_checkout book_id req st))) =
     Session.cart (session st)
  /\ Session.user_id (session (snd (complete_checkout book_id req st))) =
     Session.user_id (session st).
Proof.
  unfold complete_checkout.
  destruct (get_or_404 book_id (db st)) as [b|code];
    [destruct (multidict_get "name" (form req)) as [n|];
     [destruct (multidict_get "address" (form req)) as [a|]|]|];
    repeat split.
Qed.

(** ** Logging in, signing up, logging out *)

(** [login] with the username of a user and a password that the stored
    hash accepts: the answer is the redirect to the index, and with a
    primary key on the user table the session is then that of this very
    user; the database and the session cart are as before. *)
Theorem login_authenticates {hasher : PasswordHasher}
  (req : request) (st : state) (name pw : string) (user : User.t) :
  method req = POST ->
  multidict_get "username" (form req) = Some name ->
  multidict_get "password" (form req) = Some pw ->
  user_by_username (Some name) (db st) = Some user ->
  check_password_hash (User.password user) pw = true ->
  user_ids_unique (db st) ->
  fst (login req st) = redirect "index"
  /\ current_user (snd (login req st)) = Some user
  /\ db (snd (login req st)) = db st
  /\ Session.cart (session (snd (login req st))) = Session.cart (session st).
Proof.
  intros Hm Hu Hp Hfind Hcheck Hnd.
  unfold login. rewrite Hm, Hu, Hp, Hfind, Hcheck. simpl.
  split; [reflexivity|]. split; [|split; reflexivity].
  unfold current_user, load_user. simpl.
  apply find_some in Hfind as [Hin _].
  exact (find_unique User.id _ user Hnd Hin).
Qed.

Lemma login_authenticates_witness :
  fst (@login plain_hasher (credentials_request "admin" "admin")
              seeded_state) = redirect "index"
  /\ current_user (snd (@login plain_hasher
                          (credentials_request "admin" "admin")
                          seeded_state))
     = Some (User.mk 1 "admin" "salt0$admin").
Proof.
  destruct (@login_authenticates plain_hasher
              (credentials_request "admin" "admin") seeded_state
              "admin" "admin" (User.mk 1 "admin" "salt0$admin")
              eq_refl eq_refl eq_refl eq_refl eq_refl)
    as [Hr [Hu _]].
  - unfold user_ids_unique. vm_compute.
    repeat (constructor; [simpl; intuition discriminate|]). constructor.
  - split; [exact Hr | exact Hu].
Defined.



(** [signup] with a username that is not in the user table: one user is
    appended, with that username, the hash of the password and a key that
    no other user has; the books are untouched, and the session is that of
    the new user, whom [account] then shows. *)
Theorem signup_registers_new_user {hasher : PasswordHasher}
  (salt : string) (req : request) (st : state) (name pw : string) :
  method req = POST ->
  multidict_get "username" (form req) = Some name ->
  multidict_get "password" (form req) = Some pw ->
  ~ In name (map User.username (users (db st))) ->
  exists u,
    fst (signup salt req st) = redirect "index"
    /\ users (db (snd (signup salt req st))) = (users (db st) ++ [u])%list
    /\ books (db (snd (signup salt req st))) = books (db st)
    /\ User.username u = name
    /\ User.password u = generate_password_hash salt pw
    /\ ~ In (User.id u) (map User.id (users (db st)))
    /\ current_user (snd (signup salt req st)) = Some u
    /\ account (snd (signup salt req st)) =
       (account_html u, snd (signup salt req st)).
Proof.
  intros Hm Hu Hp Hfresh.
  assert (Hnone : user_by_username (Some name) (db st) = None).
  { unfold user_by_username.
    destruct (find _ (users (db st))) as [u|] eqn:Hf; [|reflexivity].
    exfalso. apply Hfresh. apply find_some in Hf as [Hin Heq].
    apply String.eqb_eq in Heq. rewrite <- Heq. now apply in_map. }
  set (u := User.mk (next_id (map User.id (users (db st)))) name
                    (generate_password_hash salt pw)).
  assert (Hs : signup salt req st =
               (redirect "index",
                mkState (mkDatabase (users (db st) ++ [u]) (books (db st)))
                  (flash "Регистрация прошла успешно. Вы вошли в систему."
                         "success" (login_user u (session st))))).
  { unfold signup. rewrite Hm, Hu, Hp, Hnone. reflexivity. }
  assert (Hcur : current_user (snd (signup salt req st)) = Some u).
  { rewrite Hs. unfold current_user, load_user. simpl.
    apply find_appended; [|apply Z.eqb_refl].
    intros x Hx. apply Z.eqb_neq. intros Heq.
    apply (next_id_fresh (map User.id (users (db st)))).
    rewrite <- Heq. now apply in_map. }
  exists u. split; [now rewrite Hs|]. split; [now rewrite Hs|].
  split; [now rewrite Hs|]. split; [reflexivity|]. split; [reflexivity|].
  split; [apply next_id_fresh|]. split; [exact Hcur|].
  unfold account, login_required. now rewrite Hcur.
Qed.

Lemma signup_registers_new_user_witness :
  exists u,
    fst (@signup plain_hasher "salt1" (credentials_request "alice" "pw1")
                 seeded_state) = redirect "index"
    /\ users (db alice_signed_up) = (users (db seeded_state) ++ [u])%list
    /\ u = User.mk 2 "alice" "salt1$pw1".
Proof.
  destruct (@signup_registers_new_user plain_hasher "salt1"
              (credentials_request "alice" "pw1") seeded_state
              "alice" "pw1" eq_refl eq_refl eq_refl)
    as [u [Hr [Hus [_ [_ [_ [_ [Hcur _]]]]]]]].
  - vm_compute. intuition discriminate.
  - exists u. split; [exact Hr|]. split; [exact Hus|].
    assert (E : Some u = Some (User.mk 2 "alice" "salt1$pw1"))
      by (rewrite <- Hcur; reflexivity).
    now injection E.
Defined.

(** Signing up and logging in make a round trip: when the hash made at
    signup accepts the password, a later [login] with the same username
    and password succeeds and opens the session of the user that [signup]
    created. *)
Theorem login_after_signup {hasher : PasswordHasher}
  (salt : string) (req : request) (st : state) (name pw : string) :
  method req = POST ->
  multidict_get "username" (form req) = Some name ->
  multidict_get "password" (form req) = Some pw ->
  ~ In name (map User.username (users (db st))) ->
  check_password_hash (generate_password_hash salt pw) pw = true ->
  exists u,
    In u (users (db (snd (signup salt req st))))
    /\ User.username u = name
    /\ fst (login req (snd (signup salt req st))) = redirect "index"
    /\ Session.user_id
         (session (snd (login req (snd (signup salt req st)))))
       = Some (User.id u).
Proof.
  intros Hm Hu Hp Hfresh Hcheck.
  assert (Hnone : user_by_username (Some name) (db st) = None).
  { unfold user_by_username.
    destruct (find _ (users (db st))) as [u|] eqn:Hf; [|reflexivity].
    exfalso. apply Hfresh. apply find_some in Hf as [Hin Heq].
    apply String.eqb_eq in Heq. rewrite <- Heq. now apply in_map. }
  set (u := User.mk (next_id (map User.id (users (db st)))) name
                    (generate_password_hash salt pw)).
  assert (Hs : signup salt req st =
               (redirect "index",
                mkState (mkDatabase (users (db st) ++ [u]) (books (db st)))
                  (flash "Регистрация прошла успешно. Вы вошли в систему."
                         "success" (login_user u (session st))))).
  { unfold signup. rewrite Hm, Hu, Hp, Hnone. reflexivity. }
  assert (Hfind : user_by_username (Some name)
                    (db (snd (signup salt req st))) = Some u).
  { rewrite Hs. unfold user_by_username. simpl.
    apply find_appended; [|apply String.eqb_refl].
    intros x Hx. apply String.eqb_neq. intros Heq.
    apply Hfresh. rewrite <- Heq. now apply in_map. }
  exists u. split.
  - rewrite Hs. simpl. apply in_or_app. right. now left.
  - split; [reflexivity|].
    unfold login. rewrite Hm, Hu, Hp, Hfind. simpl. rewrite Hcheck.
    split; reflexivity.
Qed.

Lemma login_after_signup_witness :
  exists u,
    In u (users (db alice_signed_up))
    /\ User.username u = "alice"
    /\ fst (@login plain_hasher (credentials_request "alice" "pw1")
                   alice_signed_up) = redirect "index"
    /\ Session.user_id
         (session (snd (@login plain_hasher
                          (credentials_request "alice" "pw1")
                          alice_signed_up)))
       = Some (User.id u).
Proof.
  apply (@login_after_signup plain_hasher "salt1"
           (credentials_request "alice" "pw1") seeded_state "alice" "pw1");
    try reflexivity.
  vm_compute. intuition discriminate.
Defined.

(** [logout] of a logged-in user ends the login and nothing else: the
    session cart and the database are kept, and [cart], [account] and
    [logout] then all send to the login page. *)
Theorem logout_ends_the_login (st : state) (u : User.t) :
  current_user st = Some u ->
  fst (logout st) = redirect "index"
  /\ current_user (snd (logout st)) = None
  /\ Session.cart (session (snd (logout st))) = Session.cart (session st)
  /\ db (snd (logout st)) = db st
  /\ fst (cart (snd (logout st))) = redirect "login"
  /\ fst (account (snd (logout st))) = redirect "login"
  /\ fst (logout (snd (logout st))) = redirect "login".
Proof.
  intros Hu.
  assert (Hl : logout st =
               (redirect "index",
                mkState (db st) (logout_user (session st)))).
  { unfold logout, login_required. now rewrite Hu. }
  rewrite Hl. repeat split.
Qed.

Lemma logout_ends_the_login_witness :
  fst (logout (admin_state (db seeded_state) (Some [1]))) = redirect "index"
  /\ current_user (snd (logout (admin_state (db seeded_state) (Some [1]))))
     = None.
Proof.
  destruct (logout_ends_the_login (admin_state (db seeded_state) (Some [1]))
              (User.mk 1 "admin" "salt0$admin") eq_refl)
    as [Hr [Hc _]].
  split; [exact Hr | exact Hc].
Defined.

(** ** The catalog search, continued *)

Lemma filter_all {A : Type} (f : A -> bool) (l : list A) :
  (forall x, In x l -> f x = true) -> filter f l = l.
Proof.
  induction l as [|a l IH]; simpl; intros H; [reflexivity|].
  rewrite (H a (or_introl eq_refl)). f_equal. apply IH.
  intros x Hx. apply H. now right.
Qed.

Lemma filter_rows_ext {A : Type} (c1 c2 : A -> option bool)
  (rows : list A) :
  (forall r, c1 r = c2 r) -> filter_rows c1 rows = filter_rows c2 rows.
Proof.
  intros H. induction rows as [|r rows IH]; simpl; [reflexivity|].
  now rewrite H, IH.
Qed.

Lemma all_percent_app (a b : string) :
  all_percent (a ++ b) = all_percent a && all_percent b.
Proof.
  induction a as [|c a IH]; simpl; [reflexivity|].
  now rewrite IH, andb_assoc.
Qed.

Lemma all_percent_lower (p : string) : all_percent p = true -> lower p = p.
Proof.
  induction p as [|c p IH]; simpl; [reflexivity|].
  intros H. apply andb_prop in H as [Hc Hp].
  apply Ascii.eqb_eq in Hc. subst c. now rewrite (IH Hp).
Qed.

Lemma all_percent_c_string (p : string) :
  all_percent p = true -> c_string p = p.
Proof.
  induction p as [|c p IH]; simpl; [reflexivity|].
  intros H. apply andb_prop in H as [Hc Hp].
  apply Ascii.eqb_eq in Hc. subst c.
  change (Ascii.eqb "%" Ascii.zero) with false. cbn iota.
  now rewrite (IH Hp).
Qed.

(** A pattern of one or more [%] matches every text. *)
Lemma pattern_compare_all_percent (p s : string) :
  all_percent p = true -> p <> "" -> pattern_compare p s = true.
Proof.
  revert s. induction p as [|c p IH]; intros s Hp Hne; [congruence|].
  simpl in Hp. apply andb_prop in Hp as [Hc Hp].
  apply Ascii.eqb_eq in Hc. subst c.
  destruct p as [|c' p'].
  - apply pattern_compare_percent_only.
  - rewrite pattern_compare_percent.
    rewrite (IH s Hp); [reflexivity | discriminate].
Qed.

(** The search does not look at the case of the ASCII letters of the search
    text: two texts that differ in it only have the same outcome, the 500
    error for both or the same books for both. *)
Theorem index_search_ignores_case
  (req1 req2 : request) (st : state) (q1 q2 : string) :
  multidict_get "search" (args req1) = Some q1 ->
  multidict_get "search" (args req2) = Some q2 ->
  lower q1 = lower q2 ->
  (index req1 st = (abort 500, st) /\ index req2 st = (abort 500, st))
  \/ exists found,
       index req1 st = (index_html found (Some q1), st)
       /\ index req2 st = (index_html found (Some q2), st).
Proof.
  intros H1 H2 Hlow. unfold index. rewrite H1, H2.
  destruct q1 as [|c1 q1], q2 as [|c2 q2]; try discriminate.
  - right. eexists. split; reflexivity.
  - rewrite (filter_rows_ext
               (fun b => ilike (Book.title b) ("%" ++ String c1 q1 ++ "%"))
               (fun b => ilike (Book.title b) ("%" ++ String c2 q2 ++ "%"))).
    + destruct (filter_rows _ (books (db st))) as [found|].
      * right. exists found. split; reflexivity.
      * left. split; reflexivity.
    + intros b. unfold ilike. now rewrite !lower_pattern, Hlow.
Qed.

Lemma index_search_ignores_case_witness :
  exists found,
    index (search_request "GREAT") seeded_state =
    (index_html found (Some "GREAT"), seeded_state)
    /\ index (search_request "great") seeded_state =
       (index_html found (Some "great"), seeded_state).
Proof.
  destruct (index_search_ignores_case (search_request "GREAT")
              (search_request "great") seeded_state "GREAT" "great"
              eq_refl eq_refl eq_refl) as [[H _] | H].
  - vm_compute in H. discriminate H.
  - exact H.
Defined.

(** A search text made of [%] only, within the limit of LIKE, shows the
    whole catalog: the text is not taken literally. *)
Theorem index_search_percent_lists_all
  (req : request) (st : state) (q : string) :
  multidict_get "search" (args req) = Some q ->
  all_percent q = true ->
  Z.of_nat (String.length q) + 2 <= like_pattern_limit ->
  index req st = (index_html (books (db st)) (Some q), st).
Proof.
  intros Hs Hq Hl. unfold index. rewrite Hs.
  destruct q as [|c q]; [reflexivity|].
  assert (Hp : all_percent ("%" ++ String c q ++ "%") = true).
  { change ("%" ++ String c q ++ "%")
      with (String "%" (String c q ++ "%")).
    cbn [all_percent]. rewrite Ascii.eqb_refl, all_percent_app, Hq.
    reflexivity. }
  rewrite (filter_rows_total _ (fun _ => true)).
  - now rewrite filter_all.
  - intros b _. unfold ilike, like. rewrite pattern_length.
    destruct (Z.ltb_spec like_pattern_limit
                (Z.of_nat (String.length (String c q)) + 2)) as [Hlt|_];
      [lia|].
    f_equal. rewrite (all_percent_lower _ Hp), (all_percent_c_string _ Hp).
    apply pattern_compare_all_percent; [exact Hp | discriminate].
Qed.

Lemma index_search_percent_lists_all_witness :
  index (search_request "%%") seeded_state =
  (index_html (books (db seeded_state)) (Some "%%"), seeded_state).
Proof.
  apply (index_search_percent_lists_all (search_request "%%") seeded_state
           "%%"); try reflexivity.
  vm_compute. discriminate.
Defined.

(** ** What every request keeps *)

Lemma bulk_save_books_unique (rows : list (string * float * option string))
  (table : list Book.t) :
  NoDup (map Book.id table) ->
  NoDup (map Book.id (bulk_save_books rows table)).
Proof.
  revert table. induction rows as [|[[t p] dsc] rows IH]; intros table Hnd.
  - exact Hnd.
  - simpl. apply IH. rewrite map_app. simpl.
    apply NoDup_snoc; [exact Hnd | apply next_id_fresh].
Qed.

Lemma bulk_save_books_appends (rows : list (string * float * option string))
  (table : list Book.t) :
  exists extra, bulk_save_books rows table = (table ++ extra)%list.
Proof.
  revert table. induction rows as [|[[t p] dsc] rows IH]; intros table.
  - exists []. now rewrite app_nil_r.
  - simpl. destruct (IH (table ++ [Book.mk (next_id (map Book.id table))
                                           t p dsc])%list) as [extra He].
    rewrite He, <- app_assoc. eauto.
Qed.

Lemma create_tables_users {hasher : PasswordHasher}
  (salt : string) (st : state) :
  users (db (create_tables salt st)) =
  match users (db st) with
  | [] => [User.mk 1 "admin" (generate_password_hash salt "admin")]
  | _ :: _ => users (db st)
  end.
Proof.
  destruct st as [[us bks] s].
  destruct us as [|u us], bks as [|b bks]; reflexivity.
Qed.

Lemma create_tables_books {hasher : PasswordHasher}
  (salt : string) (st : state) :
  books (db (create_tables salt st)) =
  match books (db st) with
  | [] => bulk_save_books default_books []
  | _ :: _ => books (db st)
  end.
Proof.
  destruct st as [[us bks] s].
  destruct us as [|u us], bks as [|b bks]; reflexivity.
Qed.

Lemma create_tables_session {hasher : PasswordHasher}
  (salt : string) (st : state) :
  session (create_tables salt st) = session st.
Proof. reflexivity. Qed.

Lemma create_tables_constraints {hasher : PasswordHasher}
  (salt : string) (st : state) :
  constraints_hold (db st) -> constraints_hold (db (create_tables salt st)).
Proof.
  intros [Hn [Hi Hb]].
  unfold constraints_hold, usernames_unique, user_ids_unique,
    book_ids_unique in *.
  rewrite create_tables_users, create_tables_books.
  split; [|split].
  - destruct (users (db st)); [|exact Hn].
    simpl. constructor; [intros [] | constructor].
  - destruct (users (db st)); [|exact Hi].
    simpl. constructor; [intros [] | constructor].
  - destruct (books (db st)); [|exact Hb].
    apply bulk_save_books_unique. constructor.
Qed.

Lemma signup_books {hasher : PasswordHasher}
  (salt : string) (req : request) (st : state) :
  books (db (snd (signup salt req st))) = books (db st).
Proof.
  unfold signup.
  destruct (method req); [reflexivity|].
  destruct (multidict_get "password" (form req)); [|reflexivity].
  destruct (user_by_username _ _); [reflexivity|].
  destruct (multidict_get "username" (form req)); reflexivity.
Qed.

Lemma signup_users {hasher : PasswordHasher}
  (salt : string) (req : request) (st : state) :
  users (db (snd (signup salt req st))) = users (db st)
  \/ exists name pw,
       users (db (snd (signup salt req st))) =
       (users (db st) ++
        [User.mk (next_id (map User.id (users (db st)))) name pw])%list.
Proof.
  unfold signup.
  destruct (method req); [now left|].
  destruct (multidict_get "password" (form req)); [|now left].
  destruct (user_by_username _ _); [now left|].
  destruct (multidict_get "username" (form req)); [|now left].
  right. simpl. eauto.
Qed.

Lemma signup_constraints {hasher : PasswordHasher}
  (salt : string) (req : request) (st : state) :
  constraints_hold (db st) ->
  constraints_hold (db (snd (signup salt req st))).
Proof.
  intros [Hn [Hi Hb]]. split; [|split].
  - now apply signup_keeps_usernames_unique.
  - unfold user_ids_unique in *.
    destruct (signup_users salt req st) as [E | [name [pw E]]]; rewrite E.
    + exact Hi.
    + rewrite map_app. simpl.
      apply NoDup_snoc; [exact Hi | apply next_id_fresh].
  - unfold book_ids_unique in *. now rewrite signup_books.
Qed.

(** The database after a request is the database after [create_tables],
    or, on the signup route, the one [signup] leaves from there. *)
Lemma serve_db {hasher : PasswordHasher}
  (seed_salt salt : string) (e : endpoint) (req : request) (st : state) :
  db (snd (serve seed_salt salt e req st)) = db (create_tables seed_salt st)
  \/ db (snd (serve seed_salt salt e req st)) =
     db (snd (signup salt req (create_tables seed_salt st))).
Proof.
  unfold serve. set (st1 := create_tables seed_salt st).
  destruct (allowed e (method req)); [|now left].
  destruct e; try (now right); left;
    unfold index, about, login, invalid_credentials, logout, checkout,
      complete_checkout, account, cart, add_to_cart, remove_from_cart,
      clear_cart, login_required;
    repeat match goal with
           | |- context [match ?x with _ => _ end] => destruct x
           end; reflexivity.
Qed.

(** One request keeps the constraints of the schema. *)
Lemma serve_keeps_constraints {hasher : PasswordHasher}
  (seed_salt salt : string) (e : endpoint) (req : request) (st : state) :
  constraints_hold (db st) ->
  constraints_hold (db (snd (serve seed_salt salt e req st))).
Proof.
  intros H. apply (create_tables_constraints seed_salt) in H.
  destruct (serve_db seed_salt salt e req st) as [E|E]; rewrite E.
  - exact H.
  - now apply signup_constraints.
Qed.

(** From the empty database on, whatever requests are served with whatever
    salts, the usernames and the primary keys are unique; and after the
    first request the book table is the nine seed books, and stays so. *)
Theorem reachable_states_are_consistent {hasher : PasswordHasher}
  (rs : list (string * string * endpoint * request)) :
  constraints_hold (db (serve_all rs initial_state))
  /\ (rs = [] \/
      books (db (serve_all rs initial_state)) =
      bulk_save_books default_books []).
Proof.
  assert (Hinv : forall rs st,
             constraints_hold (db st) ->
             constraints_hold (db (serve_all rs st))).
  { clear rs. induction rs as [|[[[s1 s2] e] req] rs IH]; intros st H.
    - exact H.
    - simpl. apply IH. now apply serve_keeps_constraints. }
  assert (Hbooks : forall rs st,
             books (db st) = bulk_save_books default_books [] ->
             books (db (serve_all rs st)) =
             bulk_save_books default_books []).
  { clear rs. induction rs as [|[[[s1 s2] e] req] rs IH]; intros st H.
    - exact H.
    - simpl. apply IH.
      destruct (serve_db s1 s2 e req st) as [E|E]; rewrite E;
        rewrite ?signup_books, create_tables_books, H; reflexivity. }
  split.
  - apply Hinv. repeat split; constructor.
  - destruct rs as [|[[[s1 s2] e] req] rs]; [now left|]. right.
    simpl. apply Hbooks.
    destruct (serve_db s1 s2 e req initial_state) as [E|E]; rewrite E;
      rewrite ?signup_books, create_tables_books; reflexivity.
Qed.

(** No request removes or alters a row: after it each table is the table
    before with rows appended, and a book table that has a row is left as
    it is. *)
Theorem serve_only_appends_rows {hasher : PasswordHasher}
  (seed_salt salt : string) (e : endpoint) (req : request) (st : state) :
  (exists extra,
     users (db (snd (serve seed_salt salt e req st))) =
     (users (db st) ++ extra)%list)
  /\ (exists extra,
        books (db (snd (serve seed_salt salt e req st))) =
        (books (db st) ++ extra)%list)
  /\ (books (db st) = [] \/
      books (db (snd (serve seed_salt salt e req st))) = books (db st)).
Proof.
  assert (Hu : exists extra,
             users (db (create_tables seed_salt st)) =
             (users (db st) ++ extra)%list).
  { rewrite create_tables_users. destruct (users (db st)) as [|u us].
    - eexists. reflexivity.
    - exists []. now rewrite app_nil_r. }
  assert (Hb : books (db (snd (serve seed_salt salt e req st))) =
               books (db (create_tables seed_salt st))).
  { destruct (serve_db seed_salt salt e req st) as [E|E]; rewrite E;
      rewrite ?signup_books; reflexivity. }
  split; [|split].
  - destruct Hu as [extra Hu].
    destruct (serve_db seed_salt salt e req st) as [E|E]; rewrite E.
    + now exists extra.
    + destruct (signup_users salt req (create_tables seed_salt st))
        as [E2 | [name [pw E2]]]; rewrite E2, Hu.
      * now exists extra.
      * rewrite <- app_assoc. eauto.
  - rewrite Hb, create_tables_books. destruct (books (db st)) as [|b bs].
    + eexists. reflexivity.
    + exists []. now rewrite app_nil_r.
  - rewrite Hb, create_tables_books.
    destruct (books (db st)); [now left | now right].
Qed.

(** The session cart is changed by the three cart routes only, and the
    login by the login, signup and logout routes only. *)
Theorem serve_session_frame {hasher : PasswordHasher}
  (seed_salt salt : string) (e : endpoint) (req : request) (st : state) :
  match e with
  | route_add_to_cart _ | route_remove_from_cart _ | route_clear_cart =>
      True
  | _ =>
      Session.cart (session (snd (serve seed_salt salt e req st))) =
      Session.cart (session st)
  end
  /\ match e with
     | route_login | route_signup | route_logout => True
     | _ =>
         Session.user_id (session (snd (serve seed_salt salt e req st))) =
         Session.user_id (session st)
     end.
Proof.
  unfold serve. set (st1 := create_tables seed_salt st).
  assert (Hs : session st1 = session st) by reflexivity.
  clearbody st1. rewrite <- Hs. clear Hs.
  destruct (allowed e (method req)); destruct e; split; try exact I;
    try reflexivity;
    unfold index, about, login, signup, invalid_credentials, logout,
      checkout, complete_checkout, account, cart, add_to_cart,
      remove_from_cart, clear_cart, login_required, add_user;
    repeat match goal with
           | |- context [match ?x with _ => _ end] => destruct x eqn:?
           end; simpl; congruence.
Qed.

Lemma serve_users_append {hasher : PasswordHasher}
  (seed_salt salt : string) (e : endpoint) (req : request) (st : state) :
  exists extra,
    users (db (snd (serve seed_salt salt e req st))) =
    (users (db (create_tables seed_salt st)) ++ extra)%list.
Proof.
  destruct (serve_db seed_salt salt e req st) as [E|E]; rewrite E.
  - exists []. now rewrite app_nil_r.
  - destruct (signup_users salt req (create_tables seed_salt st))
      as [E2 | [name [pw E2]]]; rewrite E2.
    + exists []. now rewrite app_nil_r.
    + eauto.
Qed.

Lemma serve_all_users_append {hasher : PasswordHasher}
  (rs : list (string * string * endpoint * request)) (st : state) :
  exists extra, users (db (serve_all rs st)) = (users (db st) ++ extra)%list.
Proof.
  revert st. induction rs as [|[[[s1 s2] e] req] rs IH]; intros st.
  - exists []. now rewrite app_nil_r.
  - simpl. destruct (IH (snd (serve s1 s2 e req st))) as [x1 H1].
    destruct (serve_users_append s1 s2 e req st) as [x2 H2].
    rewrite H1, H2, create_tables_users.
    destruct (users (db st)) as [|u us].
    + eexists. reflexivity.
    + rewrite <- app_assoc. eauto.
Qed.

(** Whatever requests are served with whatever salts, the constraints of
    the schema are kept: the usernames and the primary keys of both tables
    stay unique. *)
Theorem requests_keep_constraints {hasher : PasswordHasher}
  (rs : list (string * string * endpoint * request)) (st : state) :
  constraints_hold (db st) ->
  constraints_hold (db (serve_all rs st)).
Proof.
  revert st. induction rs as [|[[[s1 s2] e] req] rs IH]; intros st H.
  - exact H.
  - simpl. apply IH. now apply serve_keeps_constraints.
Qed.

Lemma requests_keep_constraints_witness :
  constraints_hold
    (db (@serve_all plain_hasher
           [("salt0", "salt1", route_signup,
             credentials_request "alice" "pw1");
            ("salt2", "salt3", route_signup,
             credentials_request "alice" "pw2")]
           initial_state)).
Proof.
  apply (@requests_keep_constraints plain_hasher
           [("salt0", "salt1", route_signup,
             credentials_request "alice" "pw1");
            ("salt2", "salt3", route_signup,
             credentials_request "alice" "pw2")]
           initial_state).
  repeat split; constructor.
Defined.

(** The default account stays: after the first request on the empty
    database and whatever requests follow, the user table begins with the
    user "admin" whose hash was made from the password "admin", and when
    that hash accepts its password, [login] as admin with the password
    admin succeeds. *)
Theorem default_account_can_log_in {hasher : PasswordHasher}
  (seed_salt salt : string) (e : endpoint) (req : request)
  (rs : list (string * string * endpoint * request)) (req' : request) :
  check_password_hash (generate_password_hash seed_salt "admin") "admin"
  = true ->
  method req' = POST ->
  multidict_get "username" (form req') = Some "admin" ->
  multidict_get "password" (form req') = Some "admin" ->
  (exists others,
     users (db (serve_all ((seed_salt, salt, e, req) :: rs) initial_state))
     = User.mk 1 "admin" (generate_password_hash seed_salt "admin")
       :: others)
  /\ fst (login req'
            (serve_all ((seed_salt, salt, e, req) :: rs) initial_state))
     = redirect "index".
Proof.
  intros Hcheck Hm Hu Hp.
  assert (Hus : exists others,
             users (db (serve_all ((seed_salt, salt, e, req) :: rs)
                                  initial_state))
             = User.mk 1 "admin" (generate_password_hash seed_salt "admin")
               :: others).
  { simpl.
    destruct (serve_all_users_append rs
                (snd (serve seed_salt salt e req initial_state)))
      as [x1 H1].
    destruct (serve_users_append seed_salt salt e req initial_state)
      as [x2 H2].
    rewrite H1, H2, create_tables_users. simpl. eauto. }
  split; [exact Hus|]. destruct Hus as [others Hus].
  unfold login. rewrite Hm, Hu, Hp. unfold user_by_username.
  rewrite Hus. simpl. now rewrite Hcheck.
Qed.

Lemma default_account_can_log_in_witness :
  fst (@login plain_hasher (credentials_request "admin" "admin")
         (@serve_all plain_hasher
            [("salt0", "salt1", route_signup,
              credentials_request "alice" "pw1");
             ("salt2", "salt3", route_clear_cart, mkRequest GET [] [])]
            initial_state))
  = redirect "index".
Proof.
  apply (@default_account_can_log_in plain_hasher "salt0" "salt1"
           route_signup (credentials_request "alice" "pw1")
           [("salt2", "salt3", route_clear_cart, mkRequest GET [] [])]
           (credentials_request "admin" "admin"));
    reflexivity.
Defined.
